(** * revitron.parameter: a shallow embedding of [revitron/parameter.py]

    The module is a thin layer over the Revit API.  The host objects it
    touches (parameters, definitions, bindings, the shared parameter file,
    the [BuiltInParameter] enumeration) are modelled as plain records; the
    Python code that wraps them is translated function by function:

    - [Parameter]               (lines 6-201 of the source),
    - [ParameterValueProvider]  (lines 204-236),
    - [BuiltInParameterNameMap] (lines 239-266),
    - [ParameterTemplate]       (lines 268-315).

    Python exceptions are explicit ([result]); host calls that write, and
    the reflection reads that build the name map, are recorded in a call
    log carried by a small writer monad ([M]). *)

From Stdlib Require Import ZArith String Ascii List Lia Floats.
From stdpp Require Import gmap strings list.
From Equations Require Import Equations.
Import ListNotations.

Local Open Scope Z_scope.
Local Open Scope string_scope.

(* ===================================================================== *)
(** ** Python values, truthiness and exceptions                           *)
(* ===================================================================== *)

Module Py.

(** A host [ElementId] object: a wrapper around an integer. *)
Record ElementId := mkElementId { IntegerValue : Z }.

(** The values [Parameter.get] and its getters can hand back. *)
Inductive value :=
| VNone
| VBool (b : bool)
| VInt (z : Z)
| VFloat (f : float)
| VStr (s : string)
| VElementId (e : ElementId).

(** Python truth-value testing, as used by [if x:] and [not x].
    A host object without [__nonzero__]/[__len__] (an [ElementId]) is
    always true. *)
Definition truthy (v : value) : bool :=
  match v with
  | VNone => false
  | VBool b => b
  | VInt z => negb (Z.eqb z 0)
  | VFloat f => negb (PrimFloat.eqb f 0%float)
  | VStr s => negb (String.eqb s "")
  | VElementId _ => true
  end.

(** The exceptions the Python semantics of this module can raise, and
    [HostException] for whatever a host call throws. *)
Inductive exn := TypeError | KeyError | AttributeError | HostException.

Inductive result (A : Type) :=
| Return (a : A)
| Raise (e : exn).
Arguments Return {A} a.
Arguments Raise {A} e.

Definition raises {A} (r : result A) : bool :=
  match r with Return _ => false | Raise _ => true end.

Definition rbind {A B} (r : result A) (k : A -> result B) : result B :=
  match r with
  | Return a => k a
  | Raise e => Raise e
  end.

(** Calling the object [f]: [None()] is a [TypeError]. *)
Definition call {A B} (f : option (A -> result B)) (self : A) : result B :=
  match f with
  | Some g => g self
  | None => Raise TypeError
  end.

End Py.
Export Py.

(* ===================================================================== *)
(** ** Host objects                                                       *)
(* ===================================================================== *)

(** A host [Autodesk.Revit.DB.Parameter].  [StorageType] is the name that
    [str(self.parameter.StorageType)] yields. *)
Module HostParameter.
Record t := mk {
  StorageType : string;
  HasValue : bool;
  IsReadOnly : bool;
  AsString : string;
  AsValueString : string;
  AsInteger : Z;
  AsDouble : float;
  AsElementId : ElementId
}.
End HostParameter.

(** A host element: all the module asks of it is [LookupParameter], which
    yields [None] for an unknown name. *)
Module Element.
Record t := mk { LookupParameter : string -> option HostParameter.t }.
End Element.

(** A category of the document; only its [Name] is read. *)
Module Category.
Record t := mk { Name : string }.
End Category.

(** A binding of the document's [BindingMap]: an instance or a type
    binding over a set of categories. *)
Module Binding.
Inductive t :=
| InstanceBinding (Categories : list Category.t)
| TypeBinding (Categories : list Category.t).

Definition Categories (b : t) : list Category.t :=
  match b with
  | InstanceBinding cs => cs
  | TypeBinding cs => cs
  end.
End Binding.

(** A definition stored in the document (the key of a binding, and what
    [SharedParameterElement.GetDefinition()] yields): a name and an id. *)
Module InternalDefinition.
Record t := mk { Name : string; Id : ElementId }.

Definition eqb (a b : t) : bool :=
  String.eqb (Name a) (Name b)
  && Z.eqb (IntegerValue (Id a)) (IntegerValue (Id b)).
End InternalDefinition.

(** A definition of the shared parameter file. *)
Module ExternalDefinition.
Record t := mk { Name : string; ParameterType : Z }.
End ExternalDefinition.

(** A group of the shared parameter file. *)
Module DefinitionGroup.
Record t := mk { Name : string; Definitions : list ExternalDefinition.t }.
End DefinitionGroup.

(** A member of the [BuiltInParameter] class as [dir]/[getattr] see it:
    an enumeration value, or something else (a method, a dunder). *)
Inductive attr :=
| Member (z : Z)
| Other.

(** What the module reads from the host.

    - [SharedParameterElements]: the definitions of the elements that
      [revitron.Filter().byClass(SharedParameterElement).getElements()]
      yields, in that order;
    - [ParameterBindings]: the entries of [revitron.DOC.ParameterBindings]
      in [ForwardIterator] order;
    - [Groups]: the groups of [revitron.APP.OpenSharedParameterFile()];
    - [ParameterType]: the members of [revitron.DB.ParameterType];
    - [BuiltInParameter]: the names [dir(revitron.DB.BuiltInParameter)]
      lists, each with the value [getattr] yields for it;
    - [GetLabelFor]: [revitron.DB.LabelUtils.GetLabelFor] on an
      enumeration value (it raises for a value without a label);
    - [Category_get]: [revitron.Category(category).get()], a helper of
      the package that is not part of this module. *)
Module Host.
Record t := mk {
  SharedParameterElements : list InternalDefinition.t;
  ParameterBindings : list (InternalDefinition.t * Binding.t);
  Groups : list DefinitionGroup.t;
  ParameterType : gmap string Z;
  BuiltInParameter : list (string * attr);
  GetLabelFor : Z -> result string;
  Category_get : string -> Category.t
}.

(** [revitron.DOC.ParameterBindings[definition]]: the binding stored
    under the definition, [None] when there is none. *)
Definition ParameterBindings_Item (h : t) (definition : InternalDefinition.t)
    : option Binding.t :=
  option_map snd
    (find (fun e => InternalDefinition.eqb (fst e) definition)
          (ParameterBindings h)).
End Host.

(** The host calls the log records: the writes, and the reflection reads
    that build the name map. *)
Inductive HostCall :=
| Call_Set (hp : HostParameter.t) (v : value)
| Call_Groups_Create (name : string)
| Call_Definitions_Create (group : string) (name : string) (pt : Z)
| Call_ParameterBindings_Insert
    (definition : ExternalDefinition.t) (binding : Binding.t)
| Call_dir_BuiltInParameter
| Call_GetLabelFor (bip : attr).

(** A computation: its outcome and the host calls it made, in order. *)
Module M.
Definition t (A : Type) : Type := result A * list HostCall.

Definition ret {A} (a : A) : t A := (Return a, []).

Definition bind {A B} (m : t A) (k : A -> t B) : t B :=
  match m with
  | (Return a, log) => let '(r, log') := k a in (r, (log ++ log')%list)
  | (Raise e, log) => (Raise e, log)
  end.

(** A host call that is logged and yields [r]. *)
Definition host_call {A} (c : HostCall) (r : result A) : t A := (r, [c]).

(** A pure step that may raise. *)
Definition lift {A} (r : result A) : t A := (r, []).

(** [try: m / except: pass] around an assignment: when [m] raises, the
    exception is dropped and the variable keeps [old]. *)
Definition try_except_pass {A} (m : t A) (old : A) : t A :=
  match m with
  | (Return a, log) => (Return a, log)
  | (Raise _, log) => (Return old, log)
  end.

Definition outcome {A} (m : t A) : result A := fst m.
Definition calls {A} (m : t A) : list HostCall := snd m.
End M.

Notation "x <- m ;; k" := (M.bind m (fun x => k))
  (at level 100, m at next level, right associativity).

(* ===================================================================== *)
(** ** class Parameter: the accessors                                     *)
(* ===================================================================== *)

Module Parameter_.

Record t := mk { parameter : option HostParameter.t }.

(** [__init__(self, element, name)] *)
Definition init (element : Element.t) (name : string) : t :=
  {| parameter := Element.LookupParameter element name |}.

(** Attribute access [self.parameter.<field>]: on [None] Python raises
    [AttributeError]. *)
Definition attr {A} (self : t) (field : HostParameter.t -> A) : result A :=
  match parameter self with
  | Some hp => Return (field hp)
  | None => Raise AttributeError
  end.

(** [exists(self)]: [self.parameter != None] *)
Definition exists_ (self : t) : bool :=
  match parameter self with
  | Some _ => true
  | None => false
  end.

(** [hasValue(self)]: falls off the end (returns [None]) when the
    parameter does not exist. *)
Definition hasValue (self : t) : result value :=
  if exists_ self
  then rbind (attr self HostParameter.HasValue) (fun b => Return (VBool b))
  else Return VNone.

(** The five getters share one shape:
    [if self.hasValue(): return self.parameter.AsX()] / [return default]. *)
Definition getter {A} (self : t) (field : HostParameter.t -> A)
    (wrap : A -> value) (default : value) : result value :=
  rbind (hasValue self) (fun hv =>
    if truthy hv
    then rbind (attr self field) (fun x => Return (wrap x))
    else Return default).

Definition getString (self : t) : result value :=
  getter self HostParameter.AsString VStr (VStr "").

Definition getValueString (self : t) : result value :=
  getter self HostParameter.AsValueString VStr (VStr "").

Definition getInteger (self : t) : result value :=
  getter self HostParameter.AsInteger VInt (VInt 0).

Definition getDouble (self : t) : result value :=
  getter self HostParameter.AsDouble VFloat (VFloat 0%float).

Definition getElementId (self : t) : result value :=
  getter self HostParameter.AsElementId VElementId (VInt 0).

(** The dictionary [switcher] of [get]. *)
Definition switcher : gmap string (t -> result value) :=
  <["ElementId" := getElementId]>
  (<["Double" := getDouble]>
  (<["Integer" := getInteger]>
  (<["ValueString" := getValueString]>
  (<["String" := getString]> ∅)))).

(** [get(self)] *)
Definition get (self : t) : result value :=
  rbind (if exists_ self
         then attr self HostParameter.StorageType
         else Return "String")
    (fun storageType =>
       let value := switcher !! storageType in
       call value self).

(** [set(self, value)]: [and] does not read [IsReadOnly] of a missing
    parameter; what [Set] returns is dropped. *)
Definition set (self : t) (v : value) : M.t value :=
  match parameter self with
  | Some hp =>
      if negb (HostParameter.IsReadOnly hp)
      then _ <- M.host_call (Call_Set hp v) (Return VNone) ;; M.ret VNone
      else M.ret VNone
  | None => M.ret VNone
  end.

(** [isBoundToCategory(category, paramName)] (static).  The first loop
    keeps the first element whose definition carries the name and breaks;
    a definition is a host object, hence true.  The second loop returns
    [True] at the first category of that name; otherwise the function
    falls off its end and yields [None].  [binding.Categories] on a
    missing binding is an [AttributeError]. *)
Definition isBoundToCategory (host : Host.t) (category paramName : string)
    : result value :=
  let definition :=
    find (fun param => String.eqb (InternalDefinition.Name param) paramName)
         (Host.SharedParameterElements host) in
  match definition with
  | Some d =>
      match Host.ParameterBindings_Item host d with
      | Some binding =>
          if existsb (fun cat => String.eqb (Category.Name cat) category)
                     (Binding.Categories binding)
          then Return (VBool true)
          else Return VNone
      | None => Raise AttributeError
      end
  | None => Return VNone
  end.

(** [bind(category, paramName, paramType = 'Text')] (static).  A host
    object is true, so [not group] and [not definition] hold exactly when
    the search before them found nothing.  The shared parameter file is
    read as the source reads it, [paramFile.Groups] on whatever
    [OpenSharedParameterFile()] hands back.  [getattr] on a name that
    [revitron.DB.ParameterType] lacks is an [AttributeError].  The group
    that [Groups.Create] yields is new, hence without definitions. *)
Definition bind (host : Host.t) (category paramName paramType : string)
    : M.t value :=
  bound <- M.lift (isBoundToCategory host category paramName) ;;
  if truthy bound then M.ret (VBool true) else
  let group :=
    find (fun item => String.eqb (DefinitionGroup.Name item) "__API")
         (Host.Groups host) in
  group <- match group with
           | Some g => M.ret g
           | None =>
               M.host_call (Call_Groups_Create "__API")
                 (Return (DefinitionGroup.mk "__API" []))
           end ;;
  let definition :=
    find (fun item => String.eqb (ExternalDefinition.Name item) paramName)
         (DefinitionGroup.Definitions group) in
  definition <-
    match definition with
    | Some d => M.ret d
    | None =>
        pt <- M.lift (match Host.ParameterType host !! paramType with
                      | Some pt => Return pt
                      | None => Raise AttributeError
                      end) ;;
        M.host_call
          (Call_Definitions_Create (DefinitionGroup.Name group) paramName pt)
          (Return (ExternalDefinition.mk paramName pt))
    end ;;
  let cat := Host.Category_get host category in
  let categories := [cat] in
  let binding := Binding.InstanceBinding categories in
  _ <- M.host_call (Call_ParameterBindings_Insert definition binding)
         (Return VNone) ;;
  M.ret VNone.

End Parameter_.

(* ===================================================================== *)
(** ** class BuiltInParameterNameMap                                      *)
(* ===================================================================== *)

Module BuiltInParameterNameMap.

Record t := mk { map : gmap string attr }.

(** [revitron.DB.LabelUtils.GetLabelFor(bip)]: only an enumeration value
    is an acceptable argument. *)
Definition label (host : Host.t) (bip : attr) : result string :=
  match bip with
  | Member z => Host.GetLabelFor host z
  | Other => Raise TypeError
  end.

Definition LabelUtils_GetLabelFor (host : Host.t) (bip : attr) : M.t string :=
  M.host_call (Call_GetLabelFor bip) (label host bip).

(** The body of the loop of [__init__]: [item] is a name of
    [dir(...)] paired with what [getattr] yields for it. *)
Definition init_body (host : Host.t) (m : gmap string attr)
    (item : string * attr) : M.t (gmap string attr) :=
  M.try_except_pass
    (let bip := snd item in
     name <- LabelUtils_GetLabelFor host bip ;;
     M.ret (<[name := bip]> m))
    m.

Fixpoint init_loop (host : Host.t) (items : list (string * attr))
    (m : gmap string attr) : M.t (gmap string attr) :=
  match items with
  | [] => M.ret m
  | item :: rest =>
      m' <- init_body host m item ;;
      init_loop host rest m'
  end.

(** [__init__(self)] *)
Definition init (host : Host.t) : M.t t :=
  items <- M.host_call Call_dir_BuiltInParameter
             (Return (Host.BuiltInParameter host)) ;;
  m <- init_loop host items ∅ ;;
  M.ret (mk m).

(** [getId(self, name)]: [self.map[name]] is a [KeyError] for an unknown
    name; [int(...)] needs an enumeration value. *)
Definition getId (self : t) (name : string) : result ElementId :=
  match map self !! name with
  | Some (Member z) => Return (mkElementId z)
  | Some Other => Raise TypeError
  | None => Raise KeyError
  end.

End BuiltInParameterNameMap.

(* ===================================================================== *)
(** ** class ParameterValueProvider                                       *)
(* ===================================================================== *)

Module ParameterValueProvider.

(** The host object [revitron.DB.ParameterValueProvider(paramId)]. *)
Inductive HostProvider := DB_ParameterValueProvider (paramId : value).

Record t := mk { provider : option HostProvider }.

(** The [while it.MoveNext()] loop: every entry whose key carries the
    name overwrites [paramId]. *)
Definition scan (name : string)
    (entries : list (InternalDefinition.t * Binding.t)) (paramId : value)
    : value :=
  fold_left
    (fun paramId it =>
       if String.eqb (InternalDefinition.Name (fst it)) name
       then VElementId (InternalDefinition.Id (fst it))
       else paramId)
    entries paramId.

(** [__init__(self, name)] *)
Definition init (host : Host.t) (name : string) : M.t t :=
  let paramId := scan name (Host.ParameterBindings host) VNone in
  paramId <-
    (if negb (truthy paramId)
     then M.try_except_pass
            (names <- BuiltInParameterNameMap.init host ;;
             id <- M.lift (BuiltInParameterNameMap.getId names name) ;;
             M.ret (VElementId id))
            paramId
     else M.ret paramId) ;;
  M.ret (mk (if truthy paramId
             then Some (DB_ParameterValueProvider paramId)
             else None)).

(** [get(self)] *)
Definition get (self : t) : option HostProvider := provider self.

End ParameterValueProvider.

(* ===================================================================== *)
(** ** The regular expression of the template renderer                    *)
(* ===================================================================== *)

(** [re.sub('\{(.+?)\}', repl, string)] with a callable [repl], written
    out for this one pattern. *)
Module Re.

(** [.]: any character but a newline (no [DOTALL] flag is given). *)
Definition dot (c : ascii) : bool := negb (Ascii.eqb c "010"%char).

(** [.+?\}] at the head of [s]: one character that [.] accepts, then
    the closing brace as soon as it is there (the quantifier is lazy),
    otherwise one more character.  Yields group 1 and what follows the
    match. *)
Fixpoint lazy_plus_close (s : string) : option (string * string) :=
  match s with
  | EmptyString => None
  | String c t =>
      if dot c then
        match t with
        | String d rest =>
            if Ascii.eqb d "}"%char then Some (String c EmptyString, rest)
            else
              match lazy_plus_close t with
              | Some (g, rest') => Some (String c g, rest')
              | None => None
              end
        | EmptyString => None
        end
      else None
  end.

(** The whole pattern at the head of [s]. *)
Definition match_at (s : string) : option (string * string) :=
  match s with
  | String c t => if Ascii.eqb c "{"%char then lazy_plus_close t else None
  | EmptyString => None
  end.

(** A match consumes at least the two braces and a character. *)
Lemma lazy_plus_close_shorter s g rest :
  lazy_plus_close s = Some (g, rest) ->
  (String.length rest < String.length s)%nat.
Proof.
  revert g rest; induction s as [|c t IH]; intros g rest; cbn; [discriminate|].
  destruct (dot c); [|discriminate].
  destruct t as [|d t']; [discriminate|].
  destruct (Ascii.eqb d "}"%char).
  - intros [= <- <-]; cbn; lia.
  - destruct (lazy_plus_close (String d t')) as [[g0 rest0]|] eqn:E;
      [|discriminate].
    intros [= <- <-]. specialize (IH _ _ eq_refl). cbn in *. lia.
Defined.

Lemma match_at_shorter s g rest :
  match_at s = Some (g, rest) ->
  (String.length rest < String.length s)%nat.
Proof.
  destruct s as [|c t]; cbn; [discriminate|].
  destruct (Ascii.eqb c "{"%char); [|discriminate].
  intros H. apply lazy_plus_close_shorter in H. lia.
Defined.

(** Matching on a value while keeping the equation that names it. *)
Definition inspect {A : Type} (x : A) : {y : A | x = y} := exist _ x eq_refl.

(** [re.sub]: scan from the left; where the pattern matches, emit what
    [repl] yields for group 1 and go on after the match; elsewhere copy
    one character and go on at the next. *)
Equations? sub (repl : string -> string) (s : string) : string
  by wf (String.length s) lt :=
sub repl EmptyString := EmptyString;
sub repl (String c t) with inspect (match_at (String c t)) := {
  | exist _ (Some (g, rest)) H => repl g +:+ sub repl rest
  | exist _ None _ => String c (sub repl t) }.
Proof.
  pose proof (match_at_shorter (String c t) g rest H) as Hlt.
  cbn in Hlt. lia.
Defined.

End Re.

(* ===================================================================== *)
(** ** class ParameterTemplate                                            *)
(* ===================================================================== *)

Module ParameterTemplate.

Record t := mk { element : Element.t; template : string; sanitize : bool }.

Section WithPackage.

(** Helpers of the package that live outside this module:
    [revitron.Element(element).get(parameter)] and
    [revitron.String.sanitize(string)]. *)
Variable Element_get : Element.t -> string -> string.
Variable String_sanitize : string -> string.

(** [reCallback(self, match)], given [match.group(1)]. *)
Definition reCallback (self : t) (group1 : string) : string :=
  let parameter := group1 in
  let string := Element_get (element self) parameter in
  if sanitize self then String_sanitize string else string.

(** [render(self)] *)
Definition render (self : t) : string :=
  Re.sub (reCallback self) (template self).

End WithPackage.

End ParameterTemplate.

(* ===================================================================== *)
(** ** Vocabulary of the statements, and a sample document                *)
(* ===================================================================== *)

(** The storage-type names [get] has a getter for. *)
Definition handled (name : string) : bool :=
  existsb (String.eqb name)
    ["String"; "ValueString"; "Integer"; "Double"; "ElementId"].

(** The name [get] dispatches on: the host's, or ['String'] when the
    parameter is missing. *)
Definition dispatch_name (self : Parameter_.t) : string :=
  match Parameter_.parameter self with
  | Some hp => HostParameter.StorageType hp
  | None => "String"
  end.

(** The kind of a value, as Python's [type(v).__name__] would name it. *)
Definition type_name (v : value) : string :=
  match v with
  | VNone => "NoneType"
  | VBool _ => "bool"
  | VInt _ => "int"
  | VFloat _ => "float"
  | VStr _ => "str"
  | VElementId _ => "ElementId"
  end.

(** [d] is the first shared parameter element, in filter order, whose
    definition carries the name. *)
Definition first_element_named (host : Host.t) (paramName : string)
    (d : InternalDefinition.t) : Prop :=
  exists before after,
    Host.SharedParameterElements host = (before ++ d :: after)%list /\
    InternalDefinition.Name d = paramName /\
    Forall (fun x => InternalDefinition.Name x <> paramName) before.

(** The binding stored for [d] lists a category of that name. *)
Definition binding_has_category (host : Host.t) (d : InternalDefinition.t)
    (category : string) : bool :=
  match Host.ParameterBindings_Item host d with
  | Some binding =>
      existsb (fun cat => String.eqb (Category.Name cat) category)
              (Binding.Categories binding)
  | None => false
  end.

(** The condition as the claim words it: some shared parameter element
    of that name has a binding that lists the category. *)
Definition some_element_bound (host : Host.t) (category paramName : string)
    : bool :=
  existsb
    (fun param =>
       String.eqb (InternalDefinition.Name param) paramName
       && binding_has_category host param category)
    (Host.SharedParameterElements host).

(** The shared parameter file has a group '__API'. *)
Definition has_api_group (host : Host.t) : bool :=
  existsb (fun g => String.eqb (DefinitionGroup.Name g) "__API")
          (Host.Groups host).

(** The definitions of its first '__API' group (none without one). *)
Definition api_definitions (host : Host.t) : list ExternalDefinition.t :=
  match find (fun g => String.eqb (DefinitionGroup.Name g) "__API")
             (Host.Groups host) with
  | Some g => DefinitionGroup.Definitions g
  | None => []
  end.

Definition has_api_definition (host : Host.t) (paramName : string) : bool :=
  existsb (fun d => String.eqb (ExternalDefinition.Name d) paramName)
          (api_definitions host).

(** Some entry of the document's binding map has a key of that name. *)
Definition binding_named (host : Host.t) (name : string) : bool :=
  existsb (fun it => String.eqb (InternalDefinition.Name (fst it)) name)
          (Host.ParameterBindings host).

(** The host with other members of [BuiltInParameter]. *)
Definition with_BuiltInParameter (host : Host.t)
    (members : list (string * attr)) : Host.t :=
  Host.mk (Host.SharedParameterElements host) (Host.ParameterBindings host)
    (Host.Groups host) (Host.ParameterType host) members
    (Host.GetLabelFor host) (Host.Category_get host).

(** The map the loop of [BuiltInParameterNameMap.__init__] leaves, as a
    fold without exceptions: a member whose label is not available adds
    nothing. *)
Definition build (host : Host.t) (items : list (string * attr))
    (m : gmap string attr) : gmap string attr :=
  fold_left
    (fun m item =>
       match BuiltInParameterNameMap.label host (snd item) with
       | Return name => <[name := snd item]> m
       | Raise _ => m
       end)
    items m.

(** How many times a run built the name map: once per [dir] call. *)
Fixpoint builds (log : list HostCall) : nat :=
  match log with
  | [] => 0
  | Call_dir_BuiltInParameter :: rest => S (builds rest)
  | _ :: rest => builds rest
  end.

(** A client that constructs one value provider per name, in order. *)
Fixpoint providers_for (host : Host.t) (names : list string)
    : M.t (list ParameterValueProvider.t) :=
  match names with
  | [] => M.ret []
  | name :: rest =>
      p <- ParameterValueProvider.init host name ;;
      ps <- providers_for host rest ;;
      M.ret (p :: ps)
  end.

(** A parameter name as the pattern delimits it: not empty, of characters
    the class [allowed] accepts, and with no closing brace after its
    first character (the shortest match). *)
Fixpoint name_tail (allowed : ascii -> bool) (s : string) : bool :=
  match s with
  | EmptyString => true
  | String c t =>
      allowed c && negb (Ascii.eqb c "}"%char) && name_tail allowed t
  end.

Definition is_name (allowed : ascii -> bool) (s : string) : bool :=
  match s with
  | EmptyString => false
  | String c t => allowed c && name_tail allowed t
  end.

(** ['{' + name + '}' + rest] *)
Definition braces (name rest : string) : string :=
  String "{"%char (name +:+ String "}"%char rest).

(** [Renders allowed repl s out]: reading [s] from the left, every brace
    group [{name}] is replaced by [repl name], and every character that
    starts no such group is copied. *)
Inductive Renders (allowed : ascii -> bool) (repl : string -> string)
    : string -> string -> Prop :=
| Renders_end : Renders allowed repl EmptyString EmptyString
| Renders_group name rest out :
    is_name allowed name = true ->
    Renders allowed repl rest out ->
    Renders allowed repl (braces name rest) (repl name +:+ out)
| Renders_char c s out :
    (forall name rest,
       is_name allowed name = true -> String c s <> braces name rest) ->
    Renders allowed repl s out ->
    Renders allowed repl (String c s) (String c out).

(** The character class of the claim as worded: any character. *)
Definition any_char (c : ascii) : bool := true.

(** The character [c] occurs in [s]. *)
Fixpoint has_char (c : ascii) (s : string) : bool :=
  match s with
  | EmptyString => false
  | String d t => Ascii.eqb d c || has_char c t
  end.

(** A line break, as a string. *)
Definition newline : string := String "010"%char EmptyString.

(** A callback that writes a group back as it stood in the template. *)
Definition rewrap (name : string) : string := braces name EmptyString.

(** What the host stores under the accessor that belongs to the storage
    type, and what the getter of that storage type falls back to; written
    as a chain of comparisons instead of a dictionary. *)
Definition stored_value (hp : HostParameter.t) : value :=
  let name := HostParameter.StorageType hp in
  if String.eqb name "String" then VStr (HostParameter.AsString hp)
  else if String.eqb name "ValueString"
       then VStr (HostParameter.AsValueString hp)
  else if String.eqb name "Integer" then VInt (HostParameter.AsInteger hp)
  else if String.eqb name "Double" then VFloat (HostParameter.AsDouble hp)
  else if String.eqb name "ElementId"
       then VElementId (HostParameter.AsElementId hp)
  else VNone.

Definition default_value (name : string) : value :=
  if String.eqb name "String" then VStr ""
  else if String.eqb name "ValueString" then VStr ""
  else if String.eqb name "Integer" then VInt 0
  else if String.eqb name "Double" then VFloat 0%float
  else if String.eqb name "ElementId" then VInt 0
  else VNone.

(** The shared parameter elements whose definition carries the name. *)
Definition named_elements (host : Host.t) (paramName : string)
    : list InternalDefinition.t :=
  List.filter
    (fun d => String.eqb (InternalDefinition.Name d) paramName)
    (Host.SharedParameterElements host).

(** The host calls [bind(category, paramName, ...)] may make. *)
Definition bind_call_allowed (host : Host.t) (category paramName : string)
    (c : HostCall) : Prop :=
  match c with
  | Call_Groups_Create name => name = "__API"
  | Call_Definitions_Create group name _ =>
      group = "__API" /\ name = paramName
  | Call_ParameterBindings_Insert definition binding =>
      ExternalDefinition.Name definition = paramName /\
      binding = Binding.InstanceBinding [Host.Category_get host category]
  | _ => False
  end.

(** A small document: two shared parameters of the same name [P], bound
    to different categories; a shared parameter file with an '__API'
    group that defines [Q]; three members of [BuiltInParameter], one of
    which has no label. *)
Module Sample.
Definition P1 := InternalDefinition.mk "P" (mkElementId 101).
Definition P2 := InternalDefinition.mk "P" (mkElementId 102).
Definition Doors := Category.mk "Doors".
Definition Walls := Category.mk "Walls".
Definition Q := ExternalDefinition.mk "Q" 1.

Definition GetLabelFor (z : Z) : result string :=
  if Z.eqb z (-1001) then Return "Height"
  else if Z.eqb z (-1002) then Return "Width"
  else Raise HostException.

Definition host : Host.t :=
  Host.mk
    [P1; P2]
    [(P1, Binding.InstanceBinding [Doors]);
     (P2, Binding.InstanceBinding [Walls])]
    [DefinitionGroup.mk "__API" [Q]]
    {["Text" := 1]}
    [("INVALID", Member (-1)); ("WALL_HEIGHT", Member (-1001));
     ("WALL_WIDTH", Member (-1002)); ("__doc__", Other)]
    GetLabelFor
    Category.mk.

(** An element whose every parameter reads [X], and a template whose only
    brace group spans a line break. *)
Definition element : Element.t := Element.mk (fun _ => None).
Definition Element_get (e : Element.t) (name : string) : string := "X".
Definition String_sanitize (s : string) : string := s.
Definition two_lines : ParameterTemplate.t :=
  ParameterTemplate.mk element
    ("{a" +:+ String "010"%char "b}") false.

(** The same document with an empty shared parameter file. *)
Definition empty_file_host : Host.t :=
  Host.mk
    (Host.SharedParameterElements host) (Host.ParameterBindings host) []
    (Host.ParameterType host) (Host.BuiltInParameter host) GetLabelFor
    Category.mk.
End Sample.

(** A document in which one shared parameter only is named [P]. *)
Definition one_P_host : Host.t :=
  Host.mk [Sample.P2] (Host.ParameterBindings Sample.host) [] ∅ []
    Sample.GetLabelFor Category.mk.

(** Some member of [BuiltInParameter] has that label. *)
Definition labelled (host : Host.t) (name : string) : bool :=
  existsb
    (fun item =>
       match BuiltInParameterNameMap.label host (snd item) with
       | Return n => String.eqb n name
       | Raise _ => false
       end)
    (Host.BuiltInParameter host).

(* ===================================================================== *)
(** ** Properties of the accessors                                        *)
(* ===================================================================== *)

Section ParameterFacts.

Import Parameter_.

(** What a getter yields, by cases on the parameter. *)
Lemma getter_cases {A} (self : t) (field : HostParameter.t -> A) wrap default :
  getter self field wrap default =
    match parameter self with
    | Some hp =>
        if HostParameter.HasValue hp then Return (wrap (field hp))
        else Return default
    | None => Return default
    end.
Proof.
  destruct self as [[hp|]]; unfold getter, hasValue; cbn; [|reflexivity].
  destruct (HostParameter.HasValue hp); reflexivity.
Qed.

End ParameterFacts.

Lemma get_dispatch_name self :
  Parameter_.get self =
    call (Parameter_.switcher !! dispatch_name self) self.
Proof. destruct self as [[hp|]]; reflexivity. Qed.

Lemma handled_cases name :
  handled name = true ->
  name = "String" \/ name = "ValueString" \/ name = "Integer" \/
  name = "Double" \/ name = "ElementId".
Proof.
  unfold handled; cbn -[String.eqb].
  rewrite !orb_true_iff, !String.eqb_eq. intuition discriminate.
Qed.



(** The first element of [l] that satisfies [f], with what precedes it. *)
Lemma find_first_split {A} (f : A -> bool) (l : list A) (x : A) :
  find f l = Some x <->
  exists before after,
    l = (before ++ x :: after)%list /\ f x = true /\
    Forall (fun y => f y = false) before.
Proof.
  split.
  - induction l as [|a l IH]; cbn; [discriminate|].
    destruct (f a) eqn:Ha.
    + intros [= <-]. exists [], l. auto.
    + intros H. destruct (IH H) as (before & after & -> & Hx & Hb).
      exists (a :: before), after. auto.
  - intros (before & after & -> & Hx & Hb).
    induction Hb as [|a before Ha _ IH]; cbn.
    + now rewrite Hx.
    + now rewrite Ha.
Qed.

Lemma find_none_iff {A} (f : A -> bool) (l : list A) :
  find f l = None <-> forall y, In y l -> f y = false.
Proof.
  split; [apply find_none|].
  induction l as [|a l IH]; cbn; [reflexivity|]. intros H.
  rewrite (H a (or_introl eq_refl)). apply IH. auto.
Qed.

Lemma existsb_find {A} (f : A -> bool) (l : list A) :
  existsb f l = match find f l with Some _ => true | None => false end.
Proof.
  induction l as [|a l IH]; cbn; [reflexivity|].
  destruct (f a); [reflexivity|exact IH].
Qed.

(** C9: [getElementId] yields the plain integer [0] when the parameter is
    missing or has no value, and the host's [AsElementId()] object when it
    has one; so results of two different types ([int] and [ElementId])
    both occur. *)
Theorem getElementId_not_uniform :
  Parameter_.getElementId (Parameter_.mk None) = Return (VInt 0) /\
  (forall hp,
     Parameter_.getElementId (Parameter_.mk (Some hp)) =
       Return (if HostParameter.HasValue hp
               then VElementId (HostParameter.AsElementId hp)
               else VInt 0)) /\
  (exists p q v w,
     Parameter_.getElementId p = Return v /\
     Parameter_.getElementId q = Return w /\
     type_name v = "int" /\ type_name w = "ElementId").
Proof.
  split; [reflexivity|split].
  - intros hp. unfold Parameter_.getElementId.
    rewrite getter_cases; cbn.
    destruct (HostParameter.HasValue hp); reflexivity.
  - pose (hp := HostParameter.mk "ElementId" true false "" "" 0 0%float
                  (mkElementId 7)).
    exists (Parameter_.mk None), (Parameter_.mk (Some hp)).
    exists (VInt 0), (VElementId (mkElementId 7)).
    repeat split.
Qed.

(** C1: [get] picks the getter by the storage-type name the host reports
    ('String', 'ValueString', 'Integer', 'Double', 'ElementId'), and a
    missing parameter is treated as 'String', which yields the empty
    string. *)
Theorem get_dispatches_on_storage_type :
  (forall hv ro s vs i d e,
     let p tag := Parameter_.mk (Some (HostParameter.mk tag hv ro s vs i d e)) in
     Parameter_.get (p "String") = Parameter_.getString (p "String") /\
     Parameter_.get (p "ValueString")
       = Parameter_.getValueString (p "ValueString") /\
     Parameter_.get (p "Integer") = Parameter_.getInteger (p "Integer") /\
     Parameter_.get (p "Double") = Parameter_.getDouble (p "Double") /\
     Parameter_.get (p "ElementId")
       = Parameter_.getElementId (p "ElementId")) /\
  Parameter_.get (Parameter_.mk None)
    = Parameter_.getString (Parameter_.mk None) /\
  Parameter_.get (Parameter_.mk None) = Return (VStr "").
Proof.
  split; [|split; reflexivity].
  intros hv ro s vs i d e p.
  repeat split; rewrite get_dispatch_name; subst p; cbn [dispatch_name
    Parameter_.parameter HostParameter.StorageType]; vm_compute; reflexivity.
Qed.



(* ===================================================================== *)
(** ** Binding parameters to categories                                   *)
(* ===================================================================== *)

Lemma first_element_named_find host paramName d :
  first_element_named host paramName d <->
  find (fun param => String.eqb (InternalDefinition.Name param) paramName)
       (Host.SharedParameterElements host) = Some d.
Proof.
  rewrite find_first_split. unfold first_element_named.
  split; intros (before & after & Hl & Hd & Hb); exists before, after;
    (split; [exact Hl|split]).
  - now apply String.eqb_eq.
  - eapply Forall_impl; [exact Hb|]. intros a Ha. now apply String.eqb_neq.
  - now apply String.eqb_eq.
  - eapply Forall_impl; [exact Hb|]. intros a Ha. now apply String.eqb_neq.
Qed.

(** What [isBoundToCategory] answers, by cases on the first element of
    that name. *)
Lemma isBoundToCategory_cases host category paramName :
  Parameter_.isBoundToCategory host category paramName =
    match find (fun param =>
                  String.eqb (InternalDefinition.Name param) paramName)
               (Host.SharedParameterElements host) with
    | Some d =>
        match Host.ParameterBindings_Item host d with
        | Some _ =>
            if binding_has_category host d category
            then Return (VBool true) else Return VNone
        | None => Raise AttributeError
        end
    | None => Return VNone
    end.
Proof.
  unfold Parameter_.isBoundToCategory, binding_has_category.
  destruct (find _ _) as [d|]; [|reflexivity].
  destruct (Host.ParameterBindings_Item host d); reflexivity.
Qed.

(** C6, as stated, fails: in the sample document the second shared
    parameter named [P] is bound to [Walls], so some element of that name
    has a binding with that category, yet the answer is [None], because
    only the first element named [P] is looked at. *)
Lemma isBoundToCategory_ignores_later_elements :
  some_element_bound Sample.host "Walls" "P" = true /\
  Parameter_.isBoundToCategory Sample.host "Walls" "P" = Return VNone.
Proof. split; vm_compute; reflexivity. Qed.

(** C6, amended: [isBoundToCategory] returns [True] exactly when the
    first shared parameter element (in filter order) whose definition
    has that name exists and the document binding for that definition
    contains a category of the given name; it never returns [False]; it
    returns [None] when no element has that name, and when the binding of
    the first such element exists and has no such category. *)
Theorem isBoundToCategory_first_element
    (host : Host.t) (category paramName : string) :
  (Parameter_.isBoundToCategory host category paramName = Return (VBool true)
   <-> exists d, first_element_named host paramName d /\
                 binding_has_category host d category = true) /\
  Parameter_.isBoundToCategory host category paramName
    <> Return (VBool false) /\
  ((forall d, In d (Host.SharedParameterElements host) ->
              InternalDefinition.Name d <> paramName) ->
   Parameter_.isBoundToCategory host category paramName = Return VNone) /\
  (forall d binding,
     first_element_named host paramName d ->
     Host.ParameterBindings_Item host d = Some binding ->
     binding_has_category host d category = false ->
     Parameter_.isBoundToCategory host category paramName = Return VNone).
Proof.
  rewrite isBoundToCategory_cases.
  repeat split.
  - destruct (find _ _) as [d|] eqn:Hf; [|discriminate].
    intros H. exists d. split; [now apply first_element_named_find|].
    destruct (Host.ParameterBindings_Item host d); [|discriminate].
    destruct (binding_has_category host d category);
      [reflexivity|discriminate].
  - intros (d & Hd & Hb). apply first_element_named_find in Hd.
    rewrite Hd. unfold binding_has_category in *.
    destruct (Host.ParameterBindings_Item host d); [|discriminate].
    now rewrite Hb.
  - destruct (find _ _) as [d|]; [|discriminate].
    destruct (Host.ParameterBindings_Item host d); [|discriminate].
    destruct (binding_has_category host d category); discriminate.
  - intros Hnone.
    replace (find _ _) with (@None InternalDefinition.t); [reflexivity|].
    symmetry; apply find_none_iff. intros y Hy.
    apply String.eqb_neq. auto.
  - intros d binding Hd Hb Hc. apply first_element_named_find in Hd.
    now rewrite Hd, Hb, Hc.
Qed.

Lemma isBoundToCategory_first_element_witness :
  Parameter_.isBoundToCategory Sample.host "Doors" "P" = Return (VBool true) /\
  Parameter_.isBoundToCategory Sample.host "Doors" "R" = Return VNone /\
  Parameter_.isBoundToCategory Sample.host "Walls" "P" = Return VNone.
Proof.
  pose proof (isBoundToCategory_first_element Sample.host "Doors" "P")
    as (Htrue & _).
  pose proof (isBoundToCategory_first_element Sample.host "Doors" "R")
    as (_ & _ & Hnone & _).
  pose proof (isBoundToCategory_first_element Sample.host "Walls" "P")
    as (_ & _ & _ & Hother).
  split; [|split].
  - apply Htrue. exists Sample.P1. split; [|reflexivity].
    exists [], [Sample.P2]. repeat split. constructor.
  - apply Hnone. intros d [<-|[<-|[]]]; discriminate.
  - apply (Hother Sample.P1 (Binding.InstanceBinding [Sample.Doors]));
      [|reflexivity|reflexivity].
    exists [], [Sample.P2]. repeat split. constructor.
Defined.



(* ===================================================================== *)
(** ** The name map of the built-in parameters and the value provider     *)
(* ===================================================================== *)

Section NameMapFacts.

Variable host : Host.t.

Abbreviation label_calls items :=
  (List.map (fun item : string * attr => Call_GetLabelFor (snd item)) items).

(** The loop never raises: it tries every item once and leaves [build]. *)
Lemma init_loop_run items m :
  BuiltInParameterNameMap.init_loop host items m
  = (Return (build host items m), label_calls items).
Proof.
  revert m; induction items as [|item items IH]; intros m; [reflexivity|].
  cbn [BuiltInParameterNameMap.init_loop build fold_left List.map].
  unfold BuiltInParameterNameMap.init_body,
    BuiltInParameterNameMap.LabelUtils_GetLabelFor, M.host_call.
  destruct (BuiltInParameterNameMap.label host (snd item)) as [name|e];
    cbn; rewrite IH; reflexivity.
Qed.

Lemma init_run :
  BuiltInParameterNameMap.init host
  = (Return (BuiltInParameterNameMap.mk
               (build host (Host.BuiltInParameter host) ∅)),
     Call_dir_BuiltInParameter :: label_calls (Host.BuiltInParameter host)).
Proof.
  unfold BuiltInParameterNameMap.init, M.host_call; cbn.
  rewrite init_loop_run; cbn. now rewrite app_nil_r.
Qed.

Lemma builds_label_calls (items : list (string * attr)) :
  builds (label_calls items) = 0%nat.
Proof. induction items; cbn; auto. Qed.

Lemma builds_app l1 l2 : builds (l1 ++ l2) = (builds l1 + builds l2)%nat.
Proof.
  induction l1 as [|c l1 IH]; cbn; [reflexivity|].
  destruct c; cbn; rewrite IH; reflexivity.
Qed.

(** An item whose label is not available leaves no trace in the map. *)
Lemma build_skip before item after m :
  raises (BuiltInParameterNameMap.label host (snd item)) = true ->
  build host (before ++ item :: after) m = build host (before ++ after) m.
Proof.
  intros Hfail. unfold build. rewrite !fold_left_app. cbn.
  destruct (BuiltInParameterNameMap.label host (snd item));
    [discriminate|reflexivity].
Qed.

(** [build] asks the host for labels only, not for its members. *)
Lemma build_with_members members items m :
  build (with_BuiltInParameter host members) items m = build host items m.
Proof. reflexivity. Qed.

(** Every key of the map is the label of the member stored under it. *)
Lemma build_provenance items m name bip :
  build host items m !! name = Some bip ->
  m !! name = Some bip \/
  exists item, In item items /\ snd item = bip /\
               BuiltInParameterNameMap.label host bip = Return name.
Proof.
  revert m; induction items as [|item items IH]; intros m; cbn; [auto|].
  intros H. apply IH in H as [H|(it & Hin & Hit)].
  - destruct (BuiltInParameterNameMap.label host (snd item)) as [n|e] eqn:Hl;
      [|auto].
    destruct (decide (n = name)) as [->|Hne].
    + rewrite lookup_insert_eq in H. injection H as <-.
      right. exists item. auto.
    + rewrite lookup_insert_ne in H by exact Hne. auto.
  - right. exists it. auto.
Qed.

Abbreviation named name :=
  (fun it : InternalDefinition.t * Binding.t =>
     String.eqb (InternalDefinition.Name (fst it)) name).

Lemma scan_truthy name entries v :
  truthy (ParameterValueProvider.scan name entries v)
  = truthy v || existsb (named name) entries.
Proof.
  revert v; induction entries as [|it entries IH]; intros v; cbn.
  - now rewrite orb_false_r.
  - unfold ParameterValueProvider.scan in IH. rewrite IH.
    destruct (String.eqb _ name); cbn; destruct (truthy v); reflexivity.
Qed.

Lemma scan_no_match name entries v :
  existsb (named name) entries = false ->
  ParameterValueProvider.scan name entries v = v.
Proof.
  revert v; induction entries as [|it entries IH]; intros v; cbn;
    [reflexivity|].
  intros H. apply orb_false_iff in H as [Hit Hrest].
  unfold ParameterValueProvider.scan in IH. rewrite IH by exact Hrest.
  now rewrite Hit.
Qed.

Lemma scan_last name before it after v :
  InternalDefinition.Name (fst it) = name ->
  Forall (fun e => InternalDefinition.Name (fst e) <> name) after ->
  ParameterValueProvider.scan name (before ++ it :: after) v
  = VElementId (InternalDefinition.Id (fst it)).
Proof.
  intros Hit Hafter. unfold ParameterValueProvider.scan.
  rewrite fold_left_app. cbn.
  apply String.eqb_eq in Hit. rewrite Hit.
  apply scan_no_match.
  induction Hafter as [|e after He _ IH]; cbn; [reflexivity|].
  apply String.eqb_neq in He. now rewrite He.
Qed.

(** The two ways [ParameterValueProvider.__init__] can run. *)
Lemma provider_init_matched name :
  binding_named host name = true ->
  ParameterValueProvider.init host name
  = (Return (ParameterValueProvider.mk
               (Some (ParameterValueProvider.DB_ParameterValueProvider
                        (ParameterValueProvider.scan name
                           (Host.ParameterBindings host) VNone)))),
     []).
Proof.
  intros Hm. unfold ParameterValueProvider.init.
  pose proof (scan_truthy name (Host.ParameterBindings host) VNone) as Ht.
  cbn in Ht. unfold binding_named in Hm. rewrite Hm in Ht.
  rewrite Ht; cbn. now rewrite Ht.
Qed.

Lemma provider_init_unmatched name :
  binding_named host name = false ->
  ParameterValueProvider.init host name
  = (Return (ParameterValueProvider.mk
               match BuiltInParameterNameMap.getId
                       (BuiltInParameterNameMap.mk
                          (build host (Host.BuiltInParameter host) ∅)) name
               with
               | Return id =>
                   Some (ParameterValueProvider.DB_ParameterValueProvider
                           (VElementId id))
               | Raise _ => None
               end),
     Call_dir_BuiltInParameter :: label_calls (Host.BuiltInParameter host)).
Proof.
  intros Hm. unfold ParameterValueProvider.init.
  rewrite (scan_no_match name _ VNone Hm), init_run; cbn.
  destruct (BuiltInParameterNameMap.getId _ name) as [id|e]; cbn;
    now rewrite !app_nil_r.
Qed.

Lemma provider_init_builds name :
  raises (M.outcome (ParameterValueProvider.init host name)) = false /\
  builds (M.calls (ParameterValueProvider.init host name))
  = if binding_named host name then 0%nat else 1%nat.
Proof.
  destruct (binding_named host name) eqn:Hm.
  - rewrite provider_init_matched by exact Hm. split; reflexivity.
  - rewrite provider_init_unmatched by exact Hm. cbn.
    now rewrite builds_label_calls.
Qed.

End NameMapFacts.

(** C8: building the name map never raises, and a member of
    [BuiltInParameter] whose label is not available is skipped (the map
    is the one built without it, and every key is the label of the member
    stored under it); when no binding carries the name and the lookup in
    the built-in map raises, the exception is swallowed, the provider
    stays [None] and [get] returns [None]. *)
Theorem name_resolution_swallows_exceptions (host : Host.t) :
  (exists names,
     M.outcome (BuiltInParameterNameMap.init host) = Return names) /\
  (forall before item after,
     Host.BuiltInParameter host = (before ++ item :: after)%list ->
     raises (BuiltInParameterNameMap.label host (snd item)) = true ->
     M.outcome (BuiltInParameterNameMap.init host)
     = M.outcome (BuiltInParameterNameMap.init
                    (with_BuiltInParameter host (before ++ after)))) /\
  (forall names name bip,
     M.outcome (BuiltInParameterNameMap.init host) = Return names ->
     BuiltInParameterNameMap.map names !! name = Some bip ->
     exists item,
       In item (Host.BuiltInParameter host) /\ snd item = bip /\
       BuiltInParameterNameMap.label host bip = Return name) /\
  (forall names name,
     binding_named host name = false ->
     M.outcome (BuiltInParameterNameMap.init host) = Return names ->
     raises (BuiltInParameterNameMap.getId names name) = true ->
     exists p,
       M.outcome (ParameterValueProvider.init host name) = Return p /\
       ParameterValueProvider.provider p = None /\
       ParameterValueProvider.get p = None).
Proof.
  rewrite init_run. cbn [M.outcome fst].
  split; [eauto|split; [|split]].
  - intros before item after Hl Hfail.
    rewrite init_run. cbn [M.outcome fst with_BuiltInParameter
      Host.BuiltInParameter].
    rewrite build_with_members, Hl. do 2 f_equal. now apply build_skip.
  - intros names name bip [= <-] Hlook. cbn in Hlook.
    apply build_provenance in Hlook as [Hempty|Hitem]; [|exact Hitem].
    rewrite lookup_empty in Hempty. discriminate.
  - intros names name Hm [= <-] Hfail.
    rewrite provider_init_unmatched by exact Hm. cbn [M.outcome fst].
    destruct (BuiltInParameterNameMap.getId _ name); [discriminate|].
    eexists. repeat split.
Qed.

Lemma name_resolution_swallows_exceptions_witness :
  M.outcome (BuiltInParameterNameMap.init Sample.host)
  = M.outcome (BuiltInParameterNameMap.init
                 (with_BuiltInParameter Sample.host
                    [("WALL_HEIGHT", Member (-1001));
                     ("WALL_WIDTH", Member (-1002)); ("__doc__", Other)])) /\
  (exists p,
     M.outcome (ParameterValueProvider.init Sample.host "Volume") = Return p /\
     ParameterValueProvider.provider p = None /\
     ParameterValueProvider.get p = None).
Proof.
  pose proof (name_resolution_swallows_exceptions Sample.host)
    as (_ & Hskip & _ & Hnone).
  split.
  - apply (Hskip [] ("INVALID", Member (-1))); reflexivity.
  - apply (Hnone
             (BuiltInParameterNameMap.mk
                (build Sample.host (Host.BuiltInParameter Sample.host) ∅))
             "Volume").
    + reflexivity.
    + vm_compute. reflexivity.
    + vm_compute. reflexivity.
Defined.

(** C10: the scan over the bindings runs to the end, so the id of the
    last entry (in iterator order) whose key carries the name is used;
    the built-in map is built only when no entry carries the name. *)
Theorem provider_uses_last_matching_binding (host : Host.t) (name : string) :
  (forall before it after,
     Host.ParameterBindings host = (before ++ it :: after)%list ->
     InternalDefinition.Name (fst it) = name ->
     Forall (fun e => InternalDefinition.Name (fst e) <> name) after ->
     ParameterValueProvider.init host name
     = (Return (ParameterValueProvider.mk
                  (Some (ParameterValueProvider.DB_ParameterValueProvider
                           (VElementId (InternalDefinition.Id (fst it)))))),
        [])) /\
  builds (M.calls (ParameterValueProvider.init host name))
  = (if binding_named host name then 0%nat else 1%nat).
Proof.
  split; [|apply provider_init_builds].
  intros before it after Hl Hit Hafter.
  rewrite provider_init_matched.
  - rewrite Hl. now rewrite (scan_last name before it after VNone Hit Hafter).
  - unfold binding_named. rewrite Hl, existsb_app. cbn.
    apply String.eqb_eq in Hit. rewrite Hit. now rewrite orb_true_r.
Qed.

Lemma provider_uses_last_matching_binding_witness :
  ParameterValueProvider.init Sample.host "P"
  = (Return (ParameterValueProvider.mk
               (Some (ParameterValueProvider.DB_ParameterValueProvider
                        (VElementId (mkElementId 102))))),
     []).
Proof.
  apply (proj1 (provider_uses_last_matching_binding Sample.host "P")
           [(Sample.P1, Binding.InstanceBinding [Sample.Doors])]
           (Sample.P2, Binding.InstanceBinding [Sample.Walls]) []).
  - reflexivity.
  - reflexivity.
  - constructor.
Defined.

(** C3, as stated, fails: two value providers constructed one after the
    other for names that no binding carries build the name map twice. *)
Lemma name_map_rebuilt_by_each_provider :
  builds (M.calls (providers_for Sample.host ["Height"; "Width"])) = 2%nat.
Proof. vm_compute. reflexivity. Qed.

(** C3, amended: the name map is not cached.  Every construction of a
    [BuiltInParameterNameMap] builds it from the host's reflection data
    once, and every [ParameterValueProvider] that falls back to the
    built-in map constructs a new one: a run of constructions builds the
    map once per name that no binding carries. *)
Theorem name_map_built_per_fallback (host : Host.t) (names : list string) :
  builds (M.calls (BuiltInParameterNameMap.init host)) = 1%nat /\
  raises (M.outcome (providers_for host names)) = false /\
  builds (M.calls (providers_for host names))
  = length (List.filter (fun name => negb (binding_named host name)) names).
Proof.
  split.
  - rewrite init_run. cbn. now rewrite builds_label_calls.
  - induction names as [|name names [IHr IHb]]; [split; reflexivity|].
    cbn [providers_for List.filter].
    destruct (provider_init_builds host name) as [Hr Hb].
    destruct (ParameterValueProvider.init host name) as [[p|e] log];
      [|discriminate].
    destruct (providers_for host names) as [[ps|e] logs]; [|discriminate].
    cbn in *. rewrite app_nil_r, builds_app, Hb, IHb.
    split; [reflexivity|].
    destruct (binding_named host name); reflexivity.
Qed.

(* ===================================================================== *)
(** ** The template renderer                                              *)
(* ===================================================================== *)

(** One step of [re.sub], without the termination argument. *)
Lemma sub_unfold repl c t :
  Re.sub repl (String c t) =
    match Re.match_at (String c t) with
    | Some (g, rest) => repl g +:+ Re.sub repl rest
    | None => String c (Re.sub repl t)
    end.
Proof.
  rewrite Re.sub_equation_2.
  destruct (Re.inspect (Re.match_at (String c t))) as [[[g rest]|] H];
    cbn -[Re.match_at Re.sub]; rewrite H; reflexivity.
Qed.

Lemma append_String c s t : String c s +:+ t = String c (s +:+ t).
Proof. reflexivity. Qed.

Lemma append_Empty t : EmptyString +:+ t = t.
Proof. reflexivity. Qed.

(** The pattern after the opening brace matches exactly a name followed
    by a closing brace. *)
Lemma lazy_plus_close_spec s g rest :
  Re.lazy_plus_close s = Some (g, rest) <->
  is_name Re.dot g = true /\ s = g +:+ String "}"%char rest.
Proof.
  split.
  - revert g rest; induction s as [|c t IH]; intros g rest; cbn;
      [discriminate|].
    destruct (Re.dot c) eqn:Hc; [|discriminate].
    destruct t as [|d t']; [discriminate|].
    destruct (Ascii.eqb_spec d "}"%char) as [->|Hd].
    + intros [= <- <-]. cbn. now rewrite Hc.
    + destruct (Re.lazy_plus_close (String d t')) as [[g0 rest0]|] eqn:E;
        [|discriminate].
      intros [= <- <-]. destruct (IH _ _ eq_refl) as [Hg0 Ht].
      split; [|cbn; now rewrite Ht].
      destruct g0 as [|c0 g1]; [discriminate|].
      cbn in Ht. injection Ht as -> _.
      cbn in *. apply andb_true_iff in Hg0 as [-> ->].
      apply Ascii.eqb_neq in Hd.
      apply andb_true_iff; split; [exact Hc|]. now rewrite Hd.
  - intros [Hg ->]. destruct g as [|c tl]; [discriminate|].
    cbn -[Re.dot] in Hg. apply andb_true_iff in Hg as [Hc Htl].
    revert c Hc Htl; induction tl as [|c' tl IH]; intros c Hc Htl;
      rewrite ?append_String, ?append_Empty; cbn [Re.lazy_plus_close].
    + rewrite Hc. reflexivity.
    + cbn -[Re.dot] in Htl. apply andb_true_iff in Htl as [Hc' Htl].
      apply andb_true_iff in Hc' as [Hc' Hne].
      apply negb_true_iff in Hne.
      rewrite Hc, Hne. pose proof (IH c' Hc' Htl) as IH'.
      rewrite append_String in IH'. cbn [Re.lazy_plus_close] in IH'.
      rewrite IH'. reflexivity.
Qed.

Lemma match_at_spec s g rest :
  Re.match_at s = Some (g, rest) <->
  is_name Re.dot g = true /\ s = braces g rest.
Proof.
  unfold braces. destruct s as [|c t]; cbn.
  - split; [discriminate|intros [_ [=]]].
  - destruct (Ascii.eqb_spec c "{"%char) as [->|Hc].
    + rewrite lazy_plus_close_spec. split; intros [Hg Ht]; split; auto.
      * now rewrite Ht.
      * now injection Ht.
    + split; [discriminate|]. intros [_ [= Hc' _]]. contradiction.
Qed.

(** [Re.sub] renders, and what renders is what [Re.sub] yields. *)
Lemma sub_renders repl s : Renders Re.dot repl s (Re.sub repl s).
Proof.
  remember (String.length s) as n eqn:Hn.
  revert s Hn; induction n as [n IH] using lt_wf_ind; intros s ->.
  destruct s as [|c t]; [rewrite Re.sub_equation_1; constructor|].
  rewrite sub_unfold.
  destruct (Re.match_at (String c t)) as [[g rest]|] eqn:Hm.
  - pose proof (Re.match_at_shorter _ _ _ Hm) as Hlt.
    apply match_at_spec in Hm as [Hg ->].
    constructor; [exact Hg|]. eapply IH; [exact Hlt|reflexivity].
  - constructor.
    + intros name rest Hname Heq.
      assert (Re.match_at (String c t) = Some (name, rest)) as Hm'
        by (apply match_at_spec; auto).
      congruence.
    + eapply IH; [|reflexivity]. cbn; lia.
Qed.

Lemma renders_sub repl s out :
  Renders Re.dot repl s out -> out = Re.sub repl s.
Proof.
  induction 1 as [|name rest out Hname _ IH|c s out Hno _ IH].
  - now rewrite Re.sub_equation_1.
  - unfold braces at 1. rewrite sub_unfold.
    replace (Re.match_at _) with (Some (name, rest));
      [now rewrite IH|].
    symmetry. apply match_at_spec. auto.
  - rewrite sub_unfold.
    destruct (Re.match_at (String c s)) as [[g rest]|] eqn:Hm;
      [|now rewrite IH].
    apply match_at_spec in Hm as [Hg Heq]. now apply Hno in Heq.
Qed.

(** C4, as stated, fails: a brace group whose name spans a line break is
    a brace-wrapped, non-empty, shortest-match name, so its rendering
    would be the parameter's value [X]; [render] leaves the template as
    it is, because [.] does not match a newline. *)
Lemma render_keeps_group_with_newline :
  ParameterTemplate.render Sample.Element_get Sample.String_sanitize
    Sample.two_lines
  = ParameterTemplate.template Sample.two_lines /\
  Renders any_char
    (ParameterTemplate.reCallback Sample.Element_get Sample.String_sanitize
       Sample.two_lines)
    (ParameterTemplate.template Sample.two_lines) "X" /\
  ~ Renders any_char
      (ParameterTemplate.reCallback Sample.Element_get Sample.String_sanitize
         Sample.two_lines)
      (ParameterTemplate.template Sample.two_lines)
      (ParameterTemplate.render Sample.Element_get Sample.String_sanitize
         Sample.two_lines).
Proof.
  split; [vm_compute; reflexivity|split].
  - exact (Renders_group any_char
             (ParameterTemplate.reCallback Sample.Element_get
                Sample.String_sanitize Sample.two_lines)
             ("a" +:+ String "010"%char "b") EmptyString EmptyString
             eq_refl (Renders_end _ _)).
  - replace (ParameterTemplate.render _ _ _)
      with (ParameterTemplate.template Sample.two_lines)
      by (vm_compute; reflexivity).
    intros H. inversion H as [| |c s out Hno Hrest Hs Hout].
    apply (Hno ("a" +:+ String "010"%char "b") EmptyString); reflexivity.
Qed.

(** C4, amended: [render] replaces every brace group [{name}] whose name
    is non-empty, contains no line break and is the shortest match (no
    closing brace after its first character) with that element
    parameter's value, passed through [String.sanitize] when [sanitize]
    is true, and copies every character that starts no such group; the
    rendering is the only string that does so. *)
Theorem render_replaces_brace_groups
    (Element_get : Element.t -> string -> string)
    (String_sanitize : string -> string)
    (self : ParameterTemplate.t) (out : string) :
  Renders Re.dot
    (fun name =>
       if ParameterTemplate.sanitize self
       then String_sanitize (Element_get (ParameterTemplate.element self) name)
       else Element_get (ParameterTemplate.element self) name)
    (ParameterTemplate.template self) out
  <-> out = ParameterTemplate.render Element_get String_sanitize self.
Proof.
  split.
  - apply renders_sub.
  - intros ->. apply sub_renders.
Qed.

(** The docstring's template, rendered. *)
Example render_sheet :
  ParameterTemplate.render
    (fun _ name => if String.eqb name "Sheet Number" then "A101" else "Plan")
    (fun s => s)
    (ParameterTemplate.mk Sample.element
       "This sheet has the number {Sheet Number} and the name {Sheet Name}"
       true)
  = "This sheet has the number A101 and the name Plan".
Proof. vm_compute. reflexivity. Qed.

(* ===================================================================== *)
(** ** Which operations raise                                             *)
(* ===================================================================== *)




(* ===================================================================== *)
(** ** Further properties of the template renderer                        *)
(* ===================================================================== *)

Lemma append_assoc (a b c : string) : (a +:+ b) +:+ c = a +:+ (b +:+ c).
Proof.
  induction a as [|x a IH]; [reflexivity|].
  rewrite !append_String. now rewrite IH.
Qed.

Lemma lazy_plus_close_no_close s :
  has_char "}"%char s = false -> Re.lazy_plus_close s = None.
Proof.
  induction s as [|c t IH]; [reflexivity|].
  cbn [has_char Re.lazy_plus_close]. intros H.
  apply orb_false_iff in H as [_ Ht].
  destruct (Re.dot c); [|reflexivity].
  destruct t as [|d t']; [reflexivity|].
  cbn [has_char] in Ht. pose proof Ht as Ht'.
  apply orb_false_iff in Ht' as [-> _].
  now rewrite (IH Ht).
Qed.

Lemma sub_no_open repl s :
  has_char "{"%char s = false -> Re.sub repl s = s.
Proof.
  induction s as [|c t IH]; [now rewrite Re.sub_equation_1|].
  cbn [has_char]. intros H. apply orb_false_iff in H as [Hc Ht].
  rewrite sub_unfold. cbn [Re.match_at]. rewrite Hc. now rewrite (IH Ht).
Qed.

Lemma sub_no_close repl s :
  has_char "}"%char s = false -> Re.sub repl s = s.
Proof.
  induction s as [|c t IH]; [now rewrite Re.sub_equation_1|].
  cbn [has_char]. intros H. apply orb_false_iff in H as [_ Ht].
  rewrite sub_unfold. cbn [Re.match_at].
  rewrite (lazy_plus_close_no_close t Ht).
  destruct (Ascii.eqb c "{"%char); now rewrite (IH Ht).
Qed.

(** A match never reaches past a line break. *)
Lemma lazy_plus_close_line t l2 :
  Re.lazy_plus_close (t +:+ String "010"%char l2) =
    match Re.lazy_plus_close t with
    | Some (g, rest) => Some (g, rest +:+ String "010"%char l2)
    | None => None
    end.
Proof.
  induction t as [|c t IH]; [reflexivity|].
  rewrite append_String. cbn [Re.lazy_plus_close].
  destruct (Re.dot c); [|reflexivity].
  destruct t as [|d t']; [reflexivity|].
  rewrite append_String in *.
  destruct (Ascii.eqb d "}"%char); [reflexivity|].
  rewrite IH.
  destruct (Re.lazy_plus_close (String d t')) as [[g rest]|]; reflexivity.
Qed.

Lemma sub_line repl l1 l2 :
  Re.sub repl (l1 +:+ String "010"%char l2)
  = Re.sub repl l1 +:+ String "010"%char (Re.sub repl l2).
Proof.
  remember (String.length l1) as n eqn:Hn.
  revert l1 Hn; induction n as [n IH] using lt_wf_ind; intros l1 ->.
  destruct l1 as [|c t].
  - rewrite append_Empty, sub_unfold, Re.sub_equation_1. reflexivity.
  - rewrite append_String, !sub_unfold. cbn [Re.match_at].
    destruct (Ascii.eqb c "{"%char) eqn:Hc.
    + rewrite lazy_plus_close_line.
      destruct (Re.lazy_plus_close t) as [[g rest]|] eqn:Hm.
      * apply Re.lazy_plus_close_shorter in Hm.
        rewrite (IH (String.length rest)); [|cbn; lia|reflexivity].
        now rewrite append_assoc.
      * rewrite (IH (String.length t)); [|cbn; lia|reflexivity].
        now rewrite append_String.
    + rewrite (IH (String.length t)); [|cbn; lia|reflexivity].
      now rewrite append_String.
Qed.

Lemma sub_rewrap s : Re.sub rewrap s = s.
Proof.
  remember (String.length s) as n eqn:Hn.
  revert s Hn; induction n as [n IH] using lt_wf_ind; intros s ->.
  destruct s as [|c t]; [now rewrite Re.sub_equation_1|].
  rewrite sub_unfold.
  destruct (Re.match_at (String c t)) as [[g rest]|] eqn:Hm.
  - pose proof (Re.match_at_shorter _ _ _ Hm) as Hlt.
    apply match_at_spec in Hm as [_ ->].
    rewrite (IH (String.length rest)); [|exact Hlt|reflexivity].
    unfold rewrap, braces.
    now rewrite append_String, append_assoc, append_String, append_Empty.
  - rewrite (IH (String.length t)); [reflexivity|cbn; lia|reflexivity].
Qed.

Lemma sub_literal_then_group repl pre name rest :
  has_char "{"%char pre = false -> is_name Re.dot name = true ->
  Re.sub repl (pre +:+ braces name rest)
  = pre +:+ (repl name +:+ Re.sub repl rest).
Proof.
  intros Hpre Hname. induction pre as [|c t IH].
  - rewrite !append_Empty. unfold braces at 1. rewrite sub_unfold.
    replace (Re.match_at _) with (Some (name, rest)); [reflexivity|].
    symmetry. apply match_at_spec. auto.
  - cbn [has_char] in Hpre. apply orb_false_iff in Hpre as [Hc Ht].
    rewrite !append_String, sub_unfold. cbn [Re.match_at].
    rewrite Hc. now rewrite (IH Ht).
Qed.

(** X12: A template without an opening brace, or without a closing brace, is
    rendered as it is, whatever the element and the flag. *)
Theorem render_without_braces
    (Element_get : Element.t -> string -> string)
    (String_sanitize : string -> string) (self : ParameterTemplate.t)
    (Hnone : has_char "{"%char (ParameterTemplate.template self) = false \/
             has_char "}"%char (ParameterTemplate.template self) = false) :
  ParameterTemplate.render Element_get String_sanitize self
  = ParameterTemplate.template self.
Proof.
  unfold ParameterTemplate.render.
  destruct Hnone as [H|H]; [now apply sub_no_open|now apply sub_no_close].
Qed.

Lemma render_without_braces_witness :
  ParameterTemplate.render Sample.Element_get Sample.String_sanitize
    (ParameterTemplate.mk Sample.element "a } b" true)
  = "a } b".
Proof.
  apply (render_without_braces Sample.Element_get Sample.String_sanitize
           (ParameterTemplate.mk Sample.element "a } b" true)).
  left. reflexivity.
Defined.

(** X13: Rendering works line by line: a template made of two parts joined by
    a line break renders to the two renderings joined by a line break. *)
Theorem render_line_by_line
    (Element_get : Element.t -> string -> string)
    (String_sanitize : string -> string)
    (e : Element.t) (l1 l2 : string) (flag : bool) :
  ParameterTemplate.render Element_get String_sanitize
    (ParameterTemplate.mk e (l1 +:+ newline +:+ l2) flag)
  = ParameterTemplate.render Element_get String_sanitize
      (ParameterTemplate.mk e l1 flag)
    +:+ newline
    +:+ ParameterTemplate.render Element_get String_sanitize
          (ParameterTemplate.mk e l2 flag).
Proof.
  unfold ParameterTemplate.render, newline.
  cbn [ParameterTemplate.template].
  rewrite !append_String, !append_Empty. apply sub_line.
Qed.

(** X14: When every parameter's value is its own name in braces, and nothing
    is sanitized, rendering gives the template back: the matches and the
    text between them cover the template exactly once. *)
Theorem render_rewrap_is_identity
    (String_sanitize : string -> string) (e : Element.t) (t : string) :
  ParameterTemplate.render (fun _ => rewrap) String_sanitize
    (ParameterTemplate.mk e t false)
  = t.
Proof. unfold ParameterTemplate.render. apply sub_rewrap. Qed.

(** X15: Text without an opening brace in front of a group is copied, the
    group is replaced by the parameter's value as it is (the value is not
    scanned for groups again), and rendering goes on after the group. *)
Theorem render_literal_then_group
    (Element_get : Element.t -> string -> string)
    (String_sanitize : string -> string)
    (e : Element.t) (flag : bool) (pre name rest : string)
    (Hpre : has_char "{"%char pre = false)
    (Hname : is_name Re.dot name = true) :
  ParameterTemplate.render Element_get String_sanitize
    (ParameterTemplate.mk e (pre +:+ braces name rest) flag)
  = pre
    +:+ (if flag then String_sanitize (Element_get e name)
         else Element_get e name)
    +:+ ParameterTemplate.render Element_get String_sanitize
          (ParameterTemplate.mk e rest flag).
Proof.
  unfold ParameterTemplate.render. cbn [ParameterTemplate.template].
  now rewrite sub_literal_then_group.
Qed.

Lemma render_literal_then_group_witness :
  ParameterTemplate.render (fun _ name => "{" +:+ name +:+ "}")
    Sample.String_sanitize
    (ParameterTemplate.mk Sample.element "No. {a}{b" false)
  = "No. {a}{b".
Proof.
  apply (render_literal_then_group (fun _ name => "{" +:+ name +:+ "}")
           Sample.String_sanitize Sample.element false "No. " "a" "{b");
    reflexivity.
Defined.

(* ===================================================================== *)
(** ** Further properties of the parameter accessors                      *)
(* ===================================================================== *)

Lemma switcher_unhandled name :
  handled name = false -> Parameter_.switcher !! name = None.
Proof.
  unfold handled; cbn -[String.eqb]. rewrite !orb_false_iff.
  intros (H1 & H2 & H3 & H4 & H5 & _).
  apply String.eqb_neq in H1, H2, H3, H4, H5.
  unfold Parameter_.switcher.
  rewrite !lookup_insert_ne by congruence. apply lookup_empty.
Qed.

(** X1: [get] on an existing parameter, as a table: for one of the five
    handled storage types it yields what the matching host accessor
    stores when the parameter has a value and that type's default when it
    has none; for any other storage type it raises [TypeError]. *)
Theorem get_by_storage_type (hp : HostParameter.t) :
  Parameter_.get (Parameter_.mk (Some hp)) =
    if handled (HostParameter.StorageType hp)
    then Return (if HostParameter.HasValue hp then stored_value hp
                 else default_value (HostParameter.StorageType hp))
    else Raise TypeError.
Proof.
  rewrite get_dispatch_name. cbn [dispatch_name Parameter_.parameter].
  destruct (handled (HostParameter.StorageType hp)) eqn:Hh.
  - destruct hp as [name hv ro s vs i d e].
    cbn [HostParameter.StorageType HostParameter.HasValue] in *.
    destruct (handled_cases _ Hh) as [E|[E|[E|[E|E]]]]; subst name;
      destruct hv; vm_compute; reflexivity.
  - now rewrite (switcher_unhandled _ Hh).
Qed.

(** X2: For a handled storage type, [get] on a parameter that is missing or
    has no value returns a value that Python takes for false. *)
Theorem get_falsy_without_value (self : Parameter_.t)
    (Hname : handled (dispatch_name self) = true)
    (Hempty : forall hp, Parameter_.parameter self = Some hp ->
                         HostParameter.HasValue hp = false) :
  exists v, Parameter_.get self = Return v /\ truthy v = false.
Proof.
  destruct self as [[hp|]].
  - rewrite get_by_storage_type.
    cbn [dispatch_name Parameter_.parameter] in Hname. rewrite Hname.
    rewrite (Hempty hp eq_refl). eexists. split; [reflexivity|].
    destruct (handled_cases _ Hname) as [E|[E|[E|[E|E]]]]; rewrite E;
      reflexivity.
  - exists (VStr ""). split; reflexivity.
Qed.

Lemma get_falsy_without_value_witness :
  exists v,
    Parameter_.get
      (Parameter_.mk
         (Some (HostParameter.mk "Double" false false "" "" 0 1%float
                  (mkElementId 0)))) = Return v /\
    truthy v = false.
Proof.
  apply (get_falsy_without_value
           (Parameter_.mk
              (Some (HostParameter.mk "Double" false false "" "" 0 1%float
                       (mkElementId 0))))).
  - reflexivity.
  - intros hp [= <-]. reflexivity.
Defined.

(** X3: A parameter looked up under a name the element does not know is
    inert: it does not exist, has no value, reads as the empty string
    (and as zero through the numeric getters), and [set] makes no host
    call. *)
Theorem unknown_parameter_is_inert
    (element : Element.t) (name : string) (v : value)
    (Hunknown : Element.LookupParameter element name = None) :
  let p := Parameter_.init element name in
  Parameter_.exists_ p = false /\
  Parameter_.hasValue p = Return VNone /\
  Parameter_.get p = Return (VStr "") /\
  Parameter_.getString p = Return (VStr "") /\
  Parameter_.getValueString p = Return (VStr "") /\
  Parameter_.getInteger p = Return (VInt 0) /\
  Parameter_.getDouble p = Return (VFloat 0%float) /\
  Parameter_.getElementId p = Return (VInt 0) /\
  Parameter_.set p v = (Return VNone, []).
Proof.
  unfold Parameter_.init. rewrite Hunknown. cbv zeta.
  repeat split.
Qed.

Lemma unknown_parameter_is_inert_witness :
  Parameter_.get (Parameter_.init Sample.element "Comments")
  = Return (VStr "") /\
  Parameter_.set (Parameter_.init Sample.element "Comments") (VStr "x")
  = (Return VNone, []).
Proof.
  pose proof (unknown_parameter_is_inert Sample.element "Comments"
                (VStr "x") eq_refl) as H.
  cbv zeta in H. destruct H as (_ & _ & Hget & _ & _ & _ & _ & _ & Hset).
  split; [exact Hget|exact Hset].
Defined.

(* ===================================================================== *)
(** ** Further properties of binding                                      *)
(* ===================================================================== *)

(** X4: [isBoundToCategory] never reports a binding that is not there: when
    it returns [True], some shared parameter element of that name has a
    binding with that category.  When at most one shared parameter
    element carries the name, the converse holds too. *)
Theorem isBoundToCategory_sound_and_complete_for_unique_names
    (host : Host.t) (category paramName : string) :
  (Parameter_.isBoundToCategory host category paramName = Return (VBool true)
   -> some_element_bound host category paramName = true) /\
  ((length (named_elements host paramName) <= 1)%nat ->
   some_element_bound host category paramName = true ->
   Parameter_.isBoundToCategory host category paramName
   = Return (VBool true)).
Proof.
  rewrite isBoundToCategory_cases. unfold some_element_bound. split.
  - destruct (find _ _) as [d|] eqn:Hf; [|discriminate].
    destruct (Host.ParameterBindings_Item host d); [|discriminate].
    destruct (binding_has_category host d category) eqn:Hc; [|discriminate].
    intros _. apply find_some in Hf as [Hin Hname].
    apply existsb_exists. exists d. now rewrite Hname, Hc.
  - intros Huniq Hsome.
    apply existsb_exists in Hsome as (d & Hin & Hd).
    apply andb_true_iff in Hd as [Hname Hc].
    destruct (find _ _) as [d'|] eqn:Hf.
    + apply find_some in Hf as [Hin' Hname'].
      assert (d' = d) as ->.
      { unfold named_elements in Huniq.
        assert (In d (List.filter
                        (fun d => String.eqb (InternalDefinition.Name d)
                                             paramName)
                        (Host.SharedParameterElements host))) as H1
          by (apply filter_In; auto).
        assert (In d' (List.filter
                         (fun d => String.eqb (InternalDefinition.Name d)
                                              paramName)
                         (Host.SharedParameterElements host))) as H2
          by (apply filter_In; auto).
        destruct (List.filter _ _) as [|x [|y l]]; cbn in *; [tauto| |lia].
        destruct H1 as [<-|[]], H2 as [<-|[]]. reflexivity. }
      unfold binding_has_category in *.
      destruct (Host.ParameterBindings_Item host d); [|discriminate].
      now rewrite Hc.
    + exfalso. eapply find_none in Hf; [|exact Hin]. congruence.
Qed.

Lemma isBoundToCategory_sound_and_complete_for_unique_names_witness :
  some_element_bound Sample.host "Doors" "P" = true /\
  Parameter_.isBoundToCategory one_P_host "Walls" "P" = Return (VBool true).
Proof.
  split.
  - apply (isBoundToCategory_sound_and_complete_for_unique_names
             Sample.host "Doors" "P"). reflexivity.
  - apply (isBoundToCategory_sound_and_complete_for_unique_names
             one_P_host "Walls" "P").
    + cbn. lia.
    + reflexivity.
Defined.

(** X5: [isBoundToCategory] raises exactly when the first shared parameter
    element of that name has no binding in the document (the lookup
    yields [None], whose [Categories] cannot be read); the exception is
    an [AttributeError]. *)
Theorem isBoundToCategory_raises_iff_first_unbound
    (host : Host.t) (category paramName : string) :
  (raises (Parameter_.isBoundToCategory host category paramName) = true
   <-> exists d, first_element_named host paramName d /\
                 Host.ParameterBindings_Item host d = None) /\
  (forall e, Parameter_.isBoundToCategory host category paramName = Raise e
             <-> e = AttributeError /\
                 raises (Parameter_.isBoundToCategory host category
                           paramName) = true).
Proof.
  rewrite isBoundToCategory_cases. split; [split|].
  - destruct (find _ _) as [d|] eqn:Hf; [|discriminate].
    apply first_element_named_find in Hf.
    destruct (Host.ParameterBindings_Item host d) eqn:Hb.
    + destruct (binding_has_category host d category); discriminate.
    + intros _. exists d. auto.
  - intros (d & Hd & Hb). apply first_element_named_find in Hd.
    now rewrite Hd, Hb.
  - intros e. destruct (find _ _) as [d|].
    + destruct (Host.ParameterBindings_Item host d).
      * destruct (binding_has_category host d category);
          split; [discriminate|intros [_ [=]]|discriminate|intros [_ [=]]].
      * split; [intros [= <-]; auto|intros [-> _]; reflexivity].
    + split; [discriminate|intros [_ [=]]].
Qed.

(** X6: How [bind] fails.  An exception of [isBoundToCategory] passes through
    before any host call.  When the parameter is not bound, the '__API'
    group holds no definition of that name and [paramType] names no member
    of [ParameterType], [bind] raises [AttributeError] after it has
    created the group (if that was missing) and before it creates a
    definition or inserts a binding. *)
Theorem bind_failure_paths
    (host : Host.t) (category paramName paramType : string) :
  (forall e,
     Parameter_.isBoundToCategory host category paramName = Raise e ->
     Parameter_.bind host category paramName paramType = (Raise e, [])) /\
  (Parameter_.isBoundToCategory host category paramName = Return VNone ->
   has_api_definition host paramName = false ->
   Host.ParameterType host !! paramType = None ->
   Parameter_.bind host category paramName paramType
   = (Raise AttributeError,
      if has_api_group host then [] else [Call_Groups_Create "__API"])).
Proof.
  split.
  - intros e Hb. unfold Parameter_.bind. now rewrite Hb.
  - intros Hb Hdef Hpt.
    unfold Parameter_.bind, has_api_definition, api_definitions,
      has_api_group in *.
    rewrite Hb. rewrite !existsb_find in *. cbn.
    destruct (find _ (Host.Groups host)) as [g|]; cbn.
    + destruct (find _ (DefinitionGroup.Definitions g)); [discriminate|].
      cbn. now rewrite Hpt.
    + now rewrite Hpt.
Qed.

Lemma bind_failure_paths_witness :
  Parameter_.bind Sample.empty_file_host "Doors" "Q" "Length"
  = (Raise AttributeError, [Call_Groups_Create "__API"]).
Proof.
  apply (proj2 (bind_failure_paths Sample.empty_file_host "Doors" "Q"
                  "Length")); reflexivity.
Defined.

(** X7: [paramType] matters only when the definition has to be created: if
    the '__API' group already holds a definition of that name, [bind]
    runs the same for every [paramType]. *)
Theorem bind_ignores_paramType_of_existing_definition
    (host : Host.t) (category paramName paramType paramType' : string)
    (Hdef : has_api_definition host paramName = true) :
  Parameter_.bind host category paramName paramType
  = Parameter_.bind host category paramName paramType'.
Proof.
  unfold Parameter_.bind, has_api_definition, api_definitions in *.
  rewrite existsb_find in Hdef.
  destruct (Parameter_.isBoundToCategory host category paramName) as [b|e];
    [|reflexivity].
  cbn. destruct (truthy b); [reflexivity|].
  destruct (find _ (Host.Groups host)) as [g|]; cbn in *; [|discriminate].
  destruct (find _ (DefinitionGroup.Definitions g)); [reflexivity|].
  discriminate.
Qed.

Lemma bind_ignores_paramType_of_existing_definition_witness :
  Parameter_.bind Sample.host "Doors" "Q" "Text"
  = Parameter_.bind Sample.host "Doors" "Q" "NoSuchType".
Proof.
  apply (bind_ignores_paramType_of_existing_definition
           Sample.host "Doors" "Q" "Text" "NoSuchType").
  reflexivity.
Defined.

(** X8: Whatever the document and whether it succeeds or fails, [bind] makes
    at most three host calls, and only these: creating the group
    '__API', creating a definition of that name in that group, and
    inserting an instance binding over the one category for a definition
    of that name. *)
Theorem bind_calls_are_bounded
    (host : Host.t) (category paramName paramType : string) :
  (length (M.calls (Parameter_.bind host category paramName paramType)) <= 3)%nat
  /\ Forall (bind_call_allowed host category paramName)
        (M.calls (Parameter_.bind host category paramName paramType)).
Proof.
  unfold Parameter_.bind.
  destruct (Parameter_.isBoundToCategory host category paramName) as [b|e];
    [|cbn; split; [lia|constructor]].
  cbn. destruct (truthy b); [cbn; split; [lia|constructor]|].
  destruct (find _ (Host.Groups host)) as [g|] eqn:Hg; cbn.
  - apply find_some in Hg as [_ Hname]. apply String.eqb_eq in Hname.
    destruct (find _ (DefinitionGroup.Definitions g)) as [d|] eqn:Hd; cbn.
    + apply find_some in Hd as [_ Hdn]. apply String.eqb_eq in Hdn.
      split; [lia|]. repeat constructor. exact Hdn.
    + destruct (Host.ParameterType host !! paramType); cbn;
        (split; [lia|]); repeat constructor; auto.
  - destruct (Host.ParameterType host !! paramType); cbn;
      (split; [lia|]); repeat constructor; auto.
Qed.

(* ===================================================================== *)
(** ** Further properties of name resolution                              *)
(* ===================================================================== *)

Section BuildLookup.

Variable host : Host.t.

Abbreviation other_label name :=
  (fun item : string * attr =>
     BuiltInParameterNameMap.label host (snd item) <> Return name).

Lemma build_lookup_none items m name :
  Forall (other_label name) items ->
  build host items m !! name = m !! name.
Proof.
  intros H; revert m; unfold build.
  induction H as [|item items Hitem _ IH]; intros m;
    cbn [fold_left]; [reflexivity|].
  rewrite IH.
  destruct (BuiltInParameterNameMap.label host (snd item)) as [n|e];
    [|reflexivity].
  apply lookup_insert_ne. congruence.
Qed.

Lemma build_lookup_last before item after m name :
  BuiltInParameterNameMap.label host (snd item) = Return name ->
  Forall (other_label name) after ->
  build host (before ++ item :: after) m !! name = Some (snd item).
Proof.
  intros Hitem Hafter. unfold build. rewrite fold_left_app. cbn.
  rewrite Hitem. fold (build host before m).
  fold (build host after (<[name:=snd item]> (build host before m))).
  rewrite build_lookup_none by exact Hafter. apply lookup_insert_eq.
Qed.

Lemma labelled_false_iff name :
  labelled host name = false <->
  Forall (other_label name) (Host.BuiltInParameter host).
Proof.
  unfold labelled.
  induction (Host.BuiltInParameter host) as [|item items IH]; cbn.
  - split; [constructor|reflexivity].
  - rewrite orb_false_iff, IH. split.
    + intros [Hitem Hrest]. constructor; [|exact Hrest].
      destruct (BuiltInParameterNameMap.label host (snd item)) as [n|e];
        [|discriminate].
      apply String.eqb_neq in Hitem. congruence.
    + intros H. inversion H as [|? ? Hitem Hrest]; subst. split; [|exact Hrest].
      destruct (BuiltInParameterNameMap.label host (snd item)) as [n|e];
        [|reflexivity].
      apply String.eqb_neq. congruence.
Qed.

(** Only enumeration values are stored in the map. *)
Lemma build_members items m name :
  build host items m !! name = Some Other -> m !! name = Some Other.
Proof.
  intros H. apply build_provenance in H as [H|(item & _ & Hitem & Hl)];
    [exact H|].
  discriminate Hl.
Qed.

End BuildLookup.

Lemma build_lookup_labelled (host : Host.t) (name : string) :
  labelled host name = true ->
  exists z,
    build host (Host.BuiltInParameter host) ∅ !! name = Some (Member z).
Proof.
  intros Hlab.
  assert (exists bip, build host (Host.BuiltInParameter host) ∅ !! name
                      = Some bip) as [bip Hbip].
  { unfold labelled in Hlab.
    induction (Host.BuiltInParameter host) as [|x items IH] using rev_ind;
      [discriminate|].
    rewrite existsb_app in Hlab. cbn in Hlab.
    unfold build in *. rewrite fold_left_app. cbn.
    destruct (BuiltInParameterNameMap.label host (snd x)) as [n|e] eqn:Hx.
    - destruct (decide (n = name)) as [->|Hne].
      + exists (snd x). apply lookup_insert_eq.
      + rewrite lookup_insert_ne by exact Hne. apply IH.
        apply String.eqb_neq in Hne. rewrite Hne in Hlab.
        now rewrite !orb_false_r in Hlab.
    - apply IH. now rewrite !orb_false_r in Hlab. }
  destruct bip as [z|]; [eauto|].
  apply build_members in Hbip. rewrite lookup_empty in Hbip. discriminate.
Qed.

(** The two ways a lookup in a freshly built map can end. *)
Lemma getId_build_cases (host : Host.t) (name : string) :
  let r := BuiltInParameterNameMap.getId
             (BuiltInParameterNameMap.mk
                (build host (Host.BuiltInParameter host) ∅)) name in
  if labelled host name then exists z, r = Return (mkElementId z)
  else r = Raise KeyError.
Proof.
  cbv zeta. unfold BuiltInParameterNameMap.getId.
  cbn [BuiltInParameterNameMap.map].
  destruct (labelled host name) eqn:Hlab.
  - destruct (build_lookup_labelled host name Hlab) as [z ->]. eauto.
  - apply labelled_false_iff in Hlab.
    now rewrite (build_lookup_none host _ ∅ name Hlab), lookup_empty.
Qed.

(** X9: Looking a label up in a freshly built name map: the id is that of
    the last member (in [dir] order) that has the label; the lookup
    raises [KeyError] exactly when no member has the label; it never
    raises [TypeError], because only enumeration values get stored. *)
Theorem getId_after_init (host : Host.t) (name : string)
    (names : BuiltInParameterNameMap.t)
    (Hinit : M.outcome (BuiltInParameterNameMap.init host) = Return names) :
  (forall before item z after,
     Host.BuiltInParameter host = (before ++ (item, Member z) :: after)%list ->
     Host.GetLabelFor host z = Return name ->
     Forall (fun it => BuiltInParameterNameMap.label host (snd it)
                       <> Return name) after ->
     BuiltInParameterNameMap.getId names name = Return (mkElementId z)) /\
  (BuiltInParameterNameMap.getId names name = Raise KeyError
   <-> labelled host name = false) /\
  BuiltInParameterNameMap.getId names name <> Raise TypeError.
Proof.
  rewrite init_run in Hinit. injection Hinit as <-.
  pose proof (getId_build_cases host name) as Hcases. cbv zeta in Hcases.
  split; [|split].
  - intros before item z after Hl Hz Hafter.
    unfold BuiltInParameterNameMap.getId. cbn [BuiltInParameterNameMap.map].
    rewrite Hl.
    rewrite (build_lookup_last host before (item, Member z) after ∅ name Hz
               Hafter).
    reflexivity.
  - destruct (labelled host name).
    + destruct Hcases as [z ->]. split; discriminate.
    + split; [reflexivity|intros _; exact Hcases].
  - destruct (labelled host name).
    + destruct Hcases as [z ->]. discriminate.
    + rewrite Hcases. discriminate.
Qed.

Lemma getId_after_init_witness :
  BuiltInParameterNameMap.getId
    (BuiltInParameterNameMap.mk
       (build Sample.host (Host.BuiltInParameter Sample.host) ∅)) "Width"
  = Return (mkElementId (-1002)).
Proof.
  apply (proj1 (getId_after_init Sample.host "Width"
                  (BuiltInParameterNameMap.mk
                     (build Sample.host (Host.BuiltInParameter Sample.host) ∅))
                  (f_equal fst (init_run Sample.host)))
           [("INVALID", Member (-1)); ("WALL_HEIGHT", Member (-1001))]
           "WALL_WIDTH" (-1002) [("__doc__", Other)]).
  - reflexivity.
  - reflexivity.
  - repeat constructor. discriminate.
Defined.

(** X10: Which provider a [ParameterValueProvider] ends up with.  [get]
    returns [None] exactly when no binding carries the name and no member
    of [BuiltInParameter] has it as its label.  A name that no binding
    carries and that is the label of a member resolves to that member's
    id (the last such member in [dir] order). *)
Theorem provider_resolution (host : Host.t) (name : string)
    (p : ParameterValueProvider.t)
    (Hinit : M.outcome (ParameterValueProvider.init host name) = Return p) :
  (ParameterValueProvider.get p = None
   <-> binding_named host name = false /\ labelled host name = false) /\
  (forall before item z after,
     binding_named host name = false ->
     Host.BuiltInParameter host = (before ++ (item, Member z) :: after)%list ->
     Host.GetLabelFor host z = Return name ->
     Forall (fun it => BuiltInParameterNameMap.label host (snd it)
                       <> Return name) after ->
     ParameterValueProvider.get p
     = Some (ParameterValueProvider.DB_ParameterValueProvider
               (VElementId (mkElementId z)))).
Proof.
  destruct (binding_named host name) eqn:Hm.
  - rewrite provider_init_matched in Hinit by exact Hm.
    injection Hinit as <-. split.
    + split; [discriminate|intros [[=] _]].
    + intros; discriminate.
  - rewrite provider_init_unmatched in Hinit by exact Hm.
    injection Hinit as <-. cbn [ParameterValueProvider.get
      ParameterValueProvider.provider].
    pose proof (getId_build_cases host name) as Hcases. cbv zeta in Hcases.
    split.
    + destruct (labelled host name).
      * destruct Hcases as [z ->]. split; [discriminate|intros [_ [=]]].
      * rewrite Hcases. split; auto.
    + intros before item z after _ Hl Hz Hafter.
      unfold BuiltInParameterNameMap.getId. cbn [BuiltInParameterNameMap.map].
      rewrite Hl.
      rewrite (build_lookup_last host before (item, Member z) after ∅ name Hz
                 Hafter).
      reflexivity.
Qed.

Lemma provider_resolution_witness :
  ParameterValueProvider.get
    (ParameterValueProvider.mk
       (Some (ParameterValueProvider.DB_ParameterValueProvider
                (VElementId (mkElementId (-1001))))))
  = Some (ParameterValueProvider.DB_ParameterValueProvider
            (VElementId (mkElementId (-1001)))) /\
  M.outcome (ParameterValueProvider.init Sample.host "Height")
  = Return (ParameterValueProvider.mk
              (Some (ParameterValueProvider.DB_ParameterValueProvider
                       (VElementId (mkElementId (-1001)))))).
Proof.
  split; [|vm_compute; reflexivity].
  apply (proj2 (provider_resolution Sample.host "Height"
                  (ParameterValueProvider.mk
                     (Some (ParameterValueProvider.DB_ParameterValueProvider
                              (VElementId (mkElementId (-1001))))))
                  eq_refl)
           [("INVALID", Member (-1))] "WALL_HEIGHT" (-1001)
           [("WALL_WIDTH", Member (-1002)); ("__doc__", Other)]).
  - reflexivity.
  - reflexivity.
  - reflexivity.
  - repeat constructor; discriminate.
Defined.

(** X11: The host calls of name resolution.  Building the name map asks for
    [dir(BuiltInParameter)] once and then for the label of every member
    once, in order, also after a member without a label.  Constructing a
    value provider makes no host call when a binding carries the name,
    and exactly the calls of one map construction otherwise. *)
Theorem name_resolution_host_calls (host : Host.t) (name : string) :
  M.calls (BuiltInParameterNameMap.init host)
  = Call_dir_BuiltInParameter
    :: List.map (fun item => Call_GetLabelFor (snd item))
         (Host.BuiltInParameter host) /\
  M.calls (ParameterValueProvider.init host name)
  = if binding_named host name then []
    else M.calls (BuiltInParameterNameMap.init host).
Proof.
  rewrite init_run. split; [reflexivity|].
  destruct (binding_named host name) eqn:Hm.
  - now rewrite provider_init_matched.
  - now rewrite provider_init_unmatched.
Qed.
